(** * The prediction engine of [backend/engine/prediction_engine.py]

    A shallow embedding of the class [PredictionEngine] and of the
    collaborators its methods talk to, followed by the properties of
    the engine's operations: registration, the prediction cycle, the
    outcome-resolution cycle and the statistics query. *)

From Stdlib Require Import ZArith QArith_base String List.
From stdpp Require Import base option list sorting gmap strings.

Local Close Scope Q_scope.
Local Open Scope string_scope.
Local Open Scope list_scope.
Local Open Scope Z_scope.

(** ** Python values *)

Module Py.

(** The values the engine handles.  The engine performs no arithmetic
    on floats (it only stores and returns them), so a float is carried
    as the rational it denotes.  A dict literal keeps its insertion
    order, hence the association list. *)
#[warnings="-register-all"]
Inductive Value : Type :=
  | VNone
  | VBool (b : bool)
  | VInt (z : Z)
  | VFloat (q : Q)
  | VStr (s : string)
  | VList (l : list Value)
  | VDict (kvs : list (string * Value)).

(** Python truth value testing. *)
Definition truth (v : Value) : bool :=
  match v with
  | VNone => false
  | VBool b => b
  | VInt z => negb (Z.eqb z 0)
  | VFloat q => negb (Z.eqb (Qnum q) 0)
  | VStr s => negb (String.eqb s "")
  | VList l => negb (Nat.eqb (length l) 0)
  | VDict kvs => negb (Nat.eqb (length kvs) 0)
  end.

(** [d[k]] on a dict literal, [None] when [d] is no dict or lacks [k]. *)
Fixpoint assoc (k : string) (kvs : list (string * Value)) : option Value :=
  match kvs with
  | [] => None
  | (k', v) :: rest => if String.eqb k k' then Some v else assoc k rest
  end.

Definition item (k : string) (v : Value) : option Value :=
  match v with
  | VDict kvs => assoc k kvs
  | _ => None
  end.

(** An exception instance; [str e] is its message. *)
Record Exn : Type := Exception { str : string }.

(** A duck-typed object: its truth value and its attribute dictionary.
    [hasattr o a] and [getattr o a default] read the dictionary. *)
Record Object : Type := mkObject {
  obj_truth : bool;
  obj_attrs : gmap string Value
}.

Definition hasattr (o : Object) (a : string) : bool :=
  bool_decide (is_Some (obj_attrs o !! a)).

Definition getattr (o : Object) (a : string) (dflt : Value) : Value :=
  default dflt (obj_attrs o !! a).

(** Truth value of an attribute holding an optional object
    ([None] is falsy). *)
Definition truthy {A} (t : A → bool) (o : option A) : bool :=
  match o with
  | None => false
  | Some x => t x
  end.

End Py.

Import Py.

(** ** Collaborators *)

(** The three outcome labels of the docstring of [update_results]. *)
Definition labels : list Value := [VStr "P"; VStr "B"; VStr "T"].

(** What a strategy answers for a window: a label, or [None] when it
    abstains, with its confidence. *)
Record Prediction : Type := mkPrediction {
  label : option string;
  confidence : Q
}.

(** Modelled from the spec: the strategy objects ([BaseAlgorithm] and
    its subclasses) are not among the sources.  A strategy carries the
    per-strategy record of the data model (name, weight, accuracy and
    the two counters) and its [predict] capability. *)
Record Algorithm : Type := mkAlgorithm {
  name : string;
  weight : Q;
  accuracy : Q;
  total_predictions : Z;
  correct_predictions : Z;
  alg_predict : list Value → Prediction
}.

(** Modelled from the spec: [get_info] of a strategy, the read-only
    summary [{name, weight, accuracy}] of its record at call time. *)
Definition get_info (a : Algorithm) : Value :=
  VDict [("name", VStr (name a));
         ("weight", VFloat (weight a));
         ("accuracy", VFloat (accuracy a))].

(** One row of the table [game_results]. *)
Record Row : Type := mkRow {
  row_id : Z;
  row_result : Value;
  row_timestamp : string;
  row_previous_pattern : Value;
  row_session_id : Z
}.

(** The calls the engine makes on the database manager, in order. *)
Inductive DbCall : Type :=
  | GetConnection
  | Cursor
  | Execute (sql : string)
  | FetchAll
  | SaveResult (result : Value) (timestamp : string)
               (previous_pattern : Value) (session_id : Z).

(** Modelled from the spec: the database manager is not among the
    sources.  It is the history store of the spec: a table of outcome
    rows, a connection that may fail to open, a write that may fail,
    and the calls received so far. *)
Record Database : Type := mkDatabase {
  game_results : list Row;
  connect_failure : option Exn;
  save_failure : option Exn;
  db_calls : list DbCall
}.

(** The reference the engine keeps to the database manager. *)
Record DatabaseManager : Type := mkDatabaseManager {
  manager_truth : bool
}.

(** ** The engine object and the world around it *)

Record PredictionEngine : Type := mkPredictionEngine {
  algorithms : list Algorithm;
  deep_learning_model : option Object;
  result_aggregator : option Object;
  db_manager : option DatabaseManager
}.

Inductive Level : Type := INFO | WARNING | ERROR.

(** A log record: level, the literal text of the message with [{}]
    for each interpolated expression, and the interpolated values. *)
Record LogRecord : Type := mkLog {
  log_level : Level;
  log_text : string;
  log_args : list Value
}.

Record World : Type := mkWorld {
  self : PredictionEngine;
  db : Database;
  log : list LogRecord;
  now : string
}.

(** ** Computations: state and exceptions *)

Inductive Result (A : Type) : Type :=
  | Return (a : A)
  | Raise (e : Exn).
Arguments Return {A} a.
Arguments Raise {A} e.

Definition M (A : Type) : Type := World → Result A * World.

#[global] Instance M_ret : MRet M := λ A a w, (Return a, w).

#[global] Instance M_bind : MBind M := λ A B f m w,
  match m w with
  | (Return a, w') => f a w'
  | (Raise e, w') => (Raise e, w')
  end.

Definition raise {A} (e : Exn) : M A := λ w, (Raise e, w).

(** [try: body except Exception as e: handler e]. *)
Definition try_except {A} (body : M A) (handler : Exn → M A) : M A := λ w,
  match body w with
  | (Return a, w') => (Return a, w')
  | (Raise e, w') => handler e w'
  end.

Definition get_self : M PredictionEngine := λ w, (Return (self w), w).

Definition set_self (e : PredictionEngine) : M unit := λ w,
  (Return (), mkWorld e (db w) (log w) (now w)).

Definition get_db : M Database := λ w, (Return (db w), w).

Definition set_db (d : Database) : M unit := λ w,
  (Return (), mkWorld (self w) d (log w) (now w)).

Definition logger (lvl : Level) (text : string) (args : list Value) : M unit :=
  λ w, (Return (), mkWorld (self w) (db w) (log w ++ [mkLog lvl text args]) (now w)).

(** [datetime.now().isoformat()] *)
Definition datetime_now_isoformat : M string := λ w, (Return (now w), w).

(** ** The database manager *)

(** Modelled from the spec: the methods of the absent database manager
    that the engine calls.  Each call is recorded in [db_calls];
    [_get_connection] raises when the store cannot be reached,
    [save_result] raises when the write fails and otherwise appends
    the row under the next free id and returns that id; obtaining a
    cursor, running the query and fetching its rows do not fail. *)
Definition called (c : DbCall) : M unit :=
  d ← get_db;
  set_db (mkDatabase (game_results d) (connect_failure d) (save_failure d)
                     (db_calls d ++ [c])).

Definition _get_connection : M unit :=
  called GetConnection;;
  d ← get_db;
  match connect_failure d with
  | Some e => raise e
  | None => mret ()
  end.

Definition cursor : M unit := called Cursor.

(** [ORDER BY id DESC] of the query in [predict]: most recent first. *)
Definition newer (r1 r2 : Row) : Prop := row_id r2 ≤ row_id r1.

#[global] Instance newer_dec : RelDecision newer.
Proof. intros r1 r2. unfold newer. apply _. Defined.

Definition LIMIT : nat := 20.

(** [cursor.execute("SELECT * FROM game_results ORDER BY id DESC LIMIT 20")]
    followed by [cursor.fetchall()]. *)
Definition select_last_results : M (list Row) :=
  called (Execute "SELECT * FROM game_results ORDER BY id DESC LIMIT 20");;
  called FetchAll;;
  d ← get_db;
  mret (take LIMIT (merge_sort newer (game_results d))).

(** Modelled from the spec: the record id [appendOutcome] hands out,
    one more than the largest id in the table. *)
Definition next_id (rows : list Row) : Z :=
  1 + foldr (λ r m, Z.max (row_id r) m) 0 rows.

(** Modelled from the spec: [appendOutcome(outcome, timestamp,
    previousPatternRef, sessionId) -> recordId] of the history store. *)
Definition save_result (result : Value) (timestamp : string)
    (previous_pattern : Value) (session_id : Z) : M Value :=
  called (SaveResult result timestamp previous_pattern session_id);;
  d ← get_db;
  match save_failure d with
  | Some e => raise e
  | None =>
      let i := next_id (game_results d) in
      set_db (mkDatabase
                (game_results d ++
                   [mkRow i result timestamp previous_pattern session_id])
                (connect_failure d) (save_failure d) (db_calls d));;
      mret (VInt i)
  end.

(** ** The methods of [PredictionEngine] *)

(** [__init__] *)
Definition init : M unit :=
  set_self (mkPredictionEngine [] None None None);;
  logger INFO "Tahmin motoru başlatıldı" [].

Definition register_algorithm (algorithm : Algorithm) : M unit :=
  e ← get_self;
  set_self (mkPredictionEngine (algorithms e ++ [algorithm])
              (deep_learning_model e) (result_aggregator e) (db_manager e));;
  logger INFO "Algoritma kaydedildi: {}" [VStr (name algorithm)].

Definition set_deep_learning_model (model : option Object) : M unit :=
  e ← get_self;
  set_self (mkPredictionEngine (algorithms e) model
              (result_aggregator e) (db_manager e));;
  logger INFO "Derin öğrenme modeli ayarlandı" [].

Definition set_result_aggregator (aggregator : option Object) : M unit :=
  e ← get_self;
  set_self (mkPredictionEngine (algorithms e) (deep_learning_model e)
              aggregator (db_manager e));;
  logger INFO "Sonuç birleştirici ayarlandı" [].

Definition set_db_manager (manager : option DatabaseManager) : M unit :=
  e ← get_self;
  set_self (mkPredictionEngine (algorithms e) (deep_learning_model e)
              (result_aggregator e) manager);;
  logger INFO "Veritabanı yöneticisi ayarlandı" [].

(** Where a block of a method body ends: with a [return], or by
    falling through to the next statement with a value. *)
Inductive Flow (A : Type) : Type :=
  | Returned (v : Value)
  | Next (a : A).
Arguments Returned {A} v.
Arguments Next {A} a.

(** [predict], the block [if data is None: ...]: the value of [data]
    after it, unless the block returns. *)
Definition predict_data (data : Value) : M (Flow Value) :=
  match data with
  | VNone =>
      e ← get_self;
      if negb (truthy manager_truth (db_manager e)) then
        logger ERROR
          "Veritabanı yöneticisi bulunamadı. Veri sağlayın veya DB yöneticisi ayarlayın."
          [];;
        mret (Returned VNone)
      else
        _get_connection;;
        cursor;;
        last_results ← select_last_results;
        match last_results with
        | [] =>
            logger WARNING "Veritabanında sonuç bulunamadı. Tahmin yapılamıyor." [];;
            mret (Returned VNone)
        | _ =>
            let results := reverse (row_result <$> last_results) in
            mret (Next (VDict [("last_results", VList results)]))
        end
  | _ => mret (Next data)
  end.

(** [predict], the block [if save_prediction and self.db_manager: ...]. *)
Definition predict_save (save_prediction : Value) : M unit :=
  e ← get_self;
  if truth save_prediction && truthy manager_truth (db_manager e) then
    try_except
      (_get_connection;; cursor)
      (λ exn, logger ERROR "Tahmin kaydetme hatası: {}" [VStr (str exn)])
  else mret ().

(** [predict(data=None, save_prediction=True)]: the body ends without
    a [return] statement, so the call evaluates to [None]. *)
Definition predict (data save_prediction : Value) : M Value :=
  f ← predict_data data;
  match f with
  | Returned v => mret v
  | Next _ => predict_save save_prediction;; mret VNone
  end.

Definition update_results (actual_result : Value) : M Value :=
  e ← get_self;
  if negb (truthy manager_truth (db_manager e)) then
    logger ERROR "Veritabanı yöneticisi bulunamadı. Sonuç kaydedilemedi." [];;
    mret (VInt (-1))
  else
    try_except
      (timestamp ← datetime_now_isoformat;
       result_id ← save_result actual_result timestamp VNone 1;
       logger INFO "Sonuç kaydedildi: ID={}, Sonuç={}" [result_id; actual_result];;
       mret result_id)
      (λ exn,
         logger ERROR "Sonuç güncelleme hatası: {}" [VStr (str exn)];;
         mret (VInt (-1))).

(** The entry [get_algorithm_stats] builds for the learning model.
    The attribute [trained] is read only under [hasattr], so reading
    it cannot fail. *)
Definition lstm_stats (model : Object) : Value :=
  VDict [("name", VStr "LSTM");
         ("weight", VFloat (3 # 2));
         ("accuracy", getattr model "accuracy" (VFloat (0 # 1)));
         ("trained", getattr model "trained" VNone);
         ("model_version", getattr model "version" (VStr "1.0"))].

Definition get_algorithm_stats : M (list Value) :=
  e ← get_self;
  let stats := get_info <$> algorithms e in
  match deep_learning_model e with
  | Some model =>
      if obj_truth model && hasattr model "trained"
      then mret (stats ++ [lstm_stats model])
      else mret stats
  | None => mret stats
  end.

(** ** Concrete engines and worlds *)

Module Scenario.

(** Two strategies that answer every window the same way. *)
Definition S1 : Algorithm :=
  mkAlgorithm "S1" (1 # 1) (0 # 1) 0 0 (λ _, mkPrediction (Some "B") (4 # 5)).

Definition S2 : Algorithm :=
  mkAlgorithm "S2" (1 # 1) (0 # 1) 0 0 (λ _, mkPrediction (Some "P") (3 # 5)).

(** A second strategy that also calls itself S1. *)
Definition S1' : Algorithm :=
  mkAlgorithm "S1" (1 # 1) (0 # 1) 0 0 (λ _, mkPrediction (Some "T") (1 # 2)).

Definition window_A : list Value :=
  [VStr "P"; VStr "B"; VStr "P"; VStr "P"; VStr "B"].

Definition data_A : Value := VDict [("last_results", VList window_A)].

Definition stamp : string := "2024-01-01T00:00:00".

(** The table holding the given outcomes, oldest first, ids from 1. *)
Definition history (outcomes : list Value) : list Row :=
  imap (λ i v, mkRow (Z.of_nat (S i)) v stamp VNone 1) outcomes.

(** [n] outcomes, alternating P and B. *)
Definition alternating (n : nat) : list Value :=
  (λ i : nat, VStr (if Nat.even i then "P" else "B")) <$> seq 0 n.

Definition manager : DatabaseManager := mkDatabaseManager true.

Definition engine_A : PredictionEngine :=
  mkPredictionEngine [S1; S2] None None (Some manager).

Definition store (rows : list Row) (save : option Exn) : Database :=
  mkDatabase rows None save [].

Definition world (e : PredictionEngine) (d : Database) : World :=
  mkWorld e d [] stamp.

Definition world_A : World := world engine_A (store (history window_A) None).

(** The same engine on a store whose writes fail. *)
Definition disk_full : Exn := Exception "database or disk is full".

Definition world_failing : World :=
  world engine_A (store (history window_A) (Some disk_full)).

(** A freshly constructed engine. *)
Definition world_0 : World :=
  world (mkPredictionEngine [] None None None) (store [] None).

(** A learning model that is set but not trained yet, and one that is
    trained and carries a weight of its own. *)
Definition untrained : Object :=
  mkObject true {[ "trained" := VBool false ]}.

Definition trained : Object :=
  mkObject true (<[ "trained" := VBool true ]>
                 (<[ "weight" := VFloat (2 # 1) ]>
                  {[ "accuracy" := VFloat (3 # 5) ]})).

Definition world_untrained : World :=
  world (mkPredictionEngine [S1; S2] (Some untrained) None None) (store [] None).

Definition world_trained : World :=
  world (mkPredictionEngine [S1; S2] (Some trained) None None) (store [] None).

(** A history longer than the window: 25 outcomes. *)
Definition world_25 : World :=
  world engine_A (store (history (alternating 25)) None).

(** [world_A] after a call of [predict] with data: the database
    manager was asked for a connection and a cursor, nothing else
    happened. *)
Definition world_A_predicted : World :=
  mkWorld engine_A
    (mkDatabase (history window_A) None None [GetConnection; Cursor])
    [] stamp.

(** The statistics of an engine whose learning model is [model]. *)
Definition stats_with_model (model : Object) : list Value :=
  match (get_algorithm_stats
           (world (mkPredictionEngine [S1; S2] (Some model) None None)
                  (store [] None))).1 with
  | Return stats => stats
  | Raise _ => []
  end.

End Scenario.

(** ** The properties, as predicates on the embedding *)

(** [m] never changes the engine object: the list of registered
    strategies with their records, the learning model, the aggregator
    and the database manager are the same after [m] as before. *)
Definition keeps_self {A} (m : M A) : Prop :=
  ∀ w, self (m w).2 = self w.

(** The outcome is rejected with an exception and the database manager
    receives no call at all. *)
Definition rejects_outcome (actual_result : Value) (w : World) : Prop :=
  ∃ e w', update_results actual_result w = (Raise e, w') ∧ db w' = db w.

(** A failing write reaches the caller of [update_results] as an
    exception. *)
Definition surfaces_failure (actual_result : Value) (w : World) : Prop :=
  ∃ e w', update_results actual_result w = (Raise e, w').

(** The learning model is set and its [trained] flag is true. *)
Definition marked_trained (e : PredictionEngine) : bool :=
  match deep_learning_model e with
  | Some model => truth (getattr model "trained" VNone)
  | None => false
  end.

(** One summary per strategy, and one more exactly for a learning
    model that is set and marked trained. *)
Definition stats_for_trained_only (w : World) : Prop :=
  ∃ stats w',
    get_algorithm_stats w = (Return stats, w') ∧
    length stats =
      (length (algorithms (self w)) + (if marked_trained (self w) then 1 else 0))%nat.

(** The summary at position [i] reports the weight and accuracy of the
    strategy registered at position [i]. *)
Definition reports_strategy (stats : list Value) (i : nat) (a : Algorithm) : Prop :=
  ∃ s, stats !! i = Some s ∧
       item "name" s = Some (VStr (name a)) ∧
       item "weight" s = Some (VFloat (weight a)) ∧
       item "accuracy" s = Some (VFloat (accuracy a)).

(** The summary [s] reports the weight and accuracy the learning model
    currently carries. *)
Definition reports_model (s : Value) (model : Object) : Prop :=
  (∀ v, obj_attrs model !! "weight" = Some v → item "weight" s = Some v) ∧
  (∀ v, obj_attrs model !! "accuracy" = Some v → item "accuracy" s = Some v).

(** Every summary, the learning model's included, carries the current
    tracked weight and accuracy. *)
Definition stats_are_current (w : World) : Prop :=
  ∀ stats w', get_algorithm_stats w = (Return stats, w') →
    (∀ i a, algorithms (self w) !! i = Some a → reports_strategy stats i a) ∧
    (∀ model s, deep_learning_model (self w) = Some model →
                stats !! length (algorithms (self w)) = Some s →
                reports_model s model).

(** No two registered strategies bear the same name. *)
Definition names_unique (e : PredictionEngine) : Prop :=
  NoDup (name <$> algorithms e).

(** Registering [a] and then [b] leaves the names unique. *)
Definition registration_keeps_names_unique (a b : Algorithm) (w : World) : Prop :=
  ∀ w', (register_algorithm a;; register_algorithm b) w = (Return (), w') →
        names_unique (self w').

(** The rows the query selects, put back in insertion order. *)
Definition window_rows (rows : list Row) : list Row :=
  reverse (take LIMIT (merge_sort newer rows)).

(** Oldest first. *)
Definition chronological (rows : list Row) : Prop :=
  StronglySorted (λ r1 r2, row_id r1 ≤ row_id r2) rows.

(** ** Sequences of calls *)

(** One call that configures the engine. *)
Inductive Setup : Type :=
  | Register (algorithm : Algorithm)
  | SetModel (model : option Object)
  | SetAggregator (aggregator : option Object)
  | SetManager (manager : option DatabaseManager).

Definition setup (c : Setup) : M unit :=
  match c with
  | Register algorithm => register_algorithm algorithm
  | SetModel model => set_deep_learning_model model
  | SetAggregator aggregator => set_result_aggregator aggregator
  | SetManager manager => set_db_manager manager
  end.

(** The calls of [cs], one after the other. *)
Fixpoint setup_all (cs : list Setup) : M unit :=
  match cs with
  | [] => mret ()
  | c :: cs => setup c;; setup_all cs
  end.

(** The strategies [cs] registers, in call order. *)
Definition registered (cs : list Setup) : list Algorithm :=
  omap (λ c, match c with Register a => Some a | _ => None end) cs.

(** The value an attribute holds after [cs], given the one it held
    before and which calls assign it. *)
Definition assigned {A} (sel : Setup → option A) (cs : list Setup) (old : A) : A :=
  foldl (λ acc c, default acc (sel c)) old cs.

Definition model_of (c : Setup) : option (option Object) :=
  match c with SetModel m => Some m | _ => None end.

Definition aggregator_of (c : Setup) : option (option Object) :=
  match c with SetAggregator g => Some g | _ => None end.

Definition manager_of (c : Setup) : option (option DatabaseManager) :=
  match c with SetManager d => Some d | _ => None end.

(** [update_results] called for each outcome in turn, the return
    values dropped. *)
Fixpoint resolve_all (outcomes : list Value) : M unit :=
  match outcomes with
  | [] => mret ()
  | o :: os => update_results o;; resolve_all os
  end.

(** The calls that write to the history. *)
Definition is_write (c : DbCall) : bool :=
  match c with
  | SaveResult _ _ _ _ => true
  | _ => false
  end.

(** [m] only reads the history: the table is left as it is and the
    database manager receives no writing call. *)
Definition reads_only {A} (m : M A) : Prop :=
  ∀ w, game_results (db (m w).2) = game_results (db w) ∧
       connect_failure (db (m w).2) = connect_failure (db w) ∧
       save_failure (db (m w).2) = save_failure (db w) ∧
       filter is_write (db_calls (db (m w).2)) = filter is_write (db_calls (db w)).

(** The ids grow strictly along the table, as they do when every row
    was appended under a fresh id. *)
Definition ascending (rows : list Row) : Prop :=
  StronglySorted (λ r1 r2, row_id r1 < row_id r2) rows.

(** The window over a list of outcomes given oldest first: its last
    [LIMIT] elements. *)
Definition recent {A} (l : list A) : list A :=
  drop (length l - LIMIT) l.

(** The world after one more log record, and after more calls on the
    database manager. *)
Definition logged (r : LogRecord) (w : World) : World :=
  mkWorld (self w) (db w) (log w ++ [r]) (now w).

Definition db_called (cs : list DbCall) (w : World) : World :=
  mkWorld (self w)
    (mkDatabase (game_results (db w)) (connect_failure (db w))
       (save_failure (db w)) (db_calls (db w) ++ cs))
    (log w) (now w).

(** The calls that read the last results. *)
Definition fetch_calls : list DbCall :=
  [GetConnection; Cursor;
   Execute "SELECT * FROM game_results ORDER BY id DESC LIMIT 20"; FetchAll].

(** ** What a computation leaves alone *)

Section Frames.

Lemma keeps_self_ret {A} (a : A) : keeps_self (mret a).
Proof. by intros w. Qed.

Lemma keeps_self_raise {A} (e : Exn) : keeps_self (@raise A e).
Proof. by intros w. Qed.

Lemma keeps_self_bind {A B} (m : M A) (f : A → M B) :
  keeps_self m → (∀ a, keeps_self (f a)) → keeps_self (m ≫= f).
Proof.
  intros Hm Hf w. unfold mbind, M_bind.
  specialize (Hm w). destruct (m w) as [[a|e] w']; simpl in *.
  - by rewrite Hf.
  - done.
Qed.

Lemma keeps_self_try {A} (m : M A) (h : Exn → M A) :
  keeps_self m → (∀ e, keeps_self (h e)) → keeps_self (try_except m h).
Proof.
  intros Hm Hh w. unfold try_except.
  specialize (Hm w). destruct (m w) as [[a|e] w']; simpl in *.
  - done.
  - by rewrite Hh.
Qed.

Lemma keeps_self_get_self : keeps_self get_self.
Proof. by intros w. Qed.

Lemma keeps_self_get_db : keeps_self get_db.
Proof. by intros w. Qed.

Lemma keeps_self_set_db d : keeps_self (set_db d).
Proof. by intros w. Qed.

Lemma keeps_self_logger lvl text args : keeps_self (logger lvl text args).
Proof. by intros w. Qed.

Lemma keeps_self_now : keeps_self datetime_now_isoformat.
Proof. by intros w. Qed.

End Frames.

Create HintDb frame discriminated.

#[export] Hint Resolve keeps_self_ret keeps_self_raise keeps_self_get_self
  keeps_self_get_db keeps_self_set_db keeps_self_logger keeps_self_now
  : frame.

(** Walk through a method body built from the primitives above. *)
Ltac frame :=
  repeat first
    [ apply keeps_self_bind; [| intros ?]
    | apply keeps_self_try; [| intros ?]
    | solve [auto with frame]
    | match goal with
      | |- keeps_self (match ?x with _ => _ end) => destruct x
      end ].

Section DatabaseFrames.

Lemma keeps_self_called c : keeps_self (called c).
Proof. unfold called. frame. Qed.

Lemma keeps_self_get_connection : keeps_self _get_connection.
Proof. unfold _get_connection. pose proof keeps_self_called. frame. Qed.

Lemma keeps_self_cursor : keeps_self cursor.
Proof. apply keeps_self_called. Qed.

Lemma keeps_self_select : keeps_self select_last_results.
Proof. unfold select_last_results. pose proof keeps_self_called. frame. Qed.

Lemma keeps_self_save_result r t p s : keeps_self (save_result r t p s).
Proof. unfold save_result. pose proof keeps_self_called. frame. Qed.

End DatabaseFrames.

#[export] Hint Resolve keeps_self_called keeps_self_get_connection
  keeps_self_cursor keeps_self_select keeps_self_save_result : frame.

Section EngineFrames.

Lemma keeps_self_predict_data data : keeps_self (predict_data data).
Proof. unfold predict_data. frame. Qed.

Lemma keeps_self_predict_save save_prediction :
  keeps_self (predict_save save_prediction).
Proof. unfold predict_save. frame. Qed.

Lemma keeps_self_update_results actual_result :
  keeps_self (update_results actual_result).
Proof. unfold update_results. frame. Qed.

Lemma keeps_self_get_algorithm_stats : keeps_self get_algorithm_stats.
Proof. unfold get_algorithm_stats. frame. Qed.

End EngineFrames.

#[export] Hint Resolve keeps_self_predict_data keeps_self_predict_save
  keeps_self_update_results keeps_self_get_algorithm_stats : frame.

(** ** The prediction cycle leaves the engine alone *)

(** C10: [predict] never mutates the engine's own state.  For every
    [data], every [save_prediction] flag and every world, the list of
    registered algorithms, the deep-learning model, the result
    aggregator and the database manager are the same after the call as
    before it. *)
Theorem predict_keeps_self (data save_prediction : Value) (w : World) :
  let w' := (predict data save_prediction w).2 in
  algorithms (self w') = algorithms (self w) ∧
  deep_learning_model (self w') = deep_learning_model (self w) ∧
  result_aggregator (self w') = result_aggregator (self w) ∧
  db_manager (self w') = db_manager (self w).
Proof.
  assert (keeps_self (predict data save_prediction)) as H.
  { unfold predict. frame. }
  simpl. by rewrite (H w).
Qed.

(** ** Outcome resolution *)

(** C5: when persisting the actual outcome fails, no per-strategy
    record (total_predictions, correct_predictions, accuracy, weight)
    is mutated: the registered strategies are, record for record, what
    they were before the call. *)
Theorem failed_persist_keeps_records
    (actual_result : Value) (w : World) (m : DatabaseManager) (e : Exn) :
  db_manager (self w) = Some m →
  manager_truth m = true →
  save_failure (db w) = Some e →
  algorithms (self (update_results actual_result w).2) = algorithms (self w).
Proof.
  intros _ _ _. by rewrite keeps_self_update_results.
Qed.

Lemma failed_persist_keeps_records_witness :
  algorithms (self (update_results (VStr "B") Scenario.world_failing).2)
  = [Scenario.S1; Scenario.S2].
Proof.
  apply (failed_persist_keeps_records (VStr "B") Scenario.world_failing
           Scenario.manager Scenario.disk_full); reflexivity.
Defined.

(** What [update_results] does when the write succeeds. *)
Lemma update_results_saved (actual_result : Value) (w : World) (m : DatabaseManager) :
  db_manager (self w) = Some m →
  manager_truth m = true →
  save_failure (db w) = None →
  let i := next_id (game_results (db w)) in
  update_results actual_result w =
    (Return (VInt i),
     mkWorld (self w)
       (mkDatabase
          (game_results (db w) ++ [mkRow i actual_result (now w) VNone 1])
          (connect_failure (db w)) None
          (db_calls (db w) ++ [SaveResult actual_result (now w) VNone 1]))
       (log w ++ [mkLog INFO "Sonuç kaydedildi: ID={}, Sonuç={}"
                    [VInt i; actual_result]])
       (now w)).
Proof.
  destruct w as [e [rows cf sf calls] l n]; simpl.
  intros Hm Ht ->.
  unfold update_results, mbind, M_bind, get_self; simpl.
  rewrite Hm; simpl. rewrite Ht. done.
Qed.

(** What [update_results] does when the write fails. *)
Lemma update_results_failed (actual_result : Value) (w : World)
    (m : DatabaseManager) (e : Exn) :
  db_manager (self w) = Some m →
  manager_truth m = true →
  save_failure (db w) = Some e →
  update_results actual_result w =
    (Return (VInt (-1)),
     mkWorld (self w)
       (mkDatabase (game_results (db w)) (connect_failure (db w)) (Some e)
          (db_calls (db w) ++ [SaveResult actual_result (now w) VNone 1]))
       (log w ++ [mkLog ERROR "Sonuç güncelleme hatası: {}" [VStr (str e)]])
       (now w)).
Proof.
  destruct w as [eng [rows cf sf calls] l n]; simpl.
  intros Hm Ht ->.
  unfold update_results, mbind, M_bind, get_self; simpl.
  rewrite Hm; simpl. rewrite Ht. done.
Qed.

(** C3, as stated, fails: the outcome "X" is outside P/B/T, yet the
    call does not fail and the row is written. *)
Lemma invalid_outcome_is_written :
(VStr "X" ∉ labels) ∧ ¬ rejects_outcome (VStr "X") Scenario.world_A.
Proof.
  split.
  - unfold labels. rewrite !not_elem_of_cons. repeat split; try discriminate.
    apply not_elem_of_nil.
  - intros (e & w' & Hrun & _).
    rewrite (update_results_saved _ _ Scenario.manager) in Hrun by reflexivity.
    discriminate Hrun.
Qed.

(** C3, amended: [update_results] does not validate the actual outcome.
    Whatever value it is given, in the label set or not, with a
    database manager set and a write that succeeds it hands the value
    to [save_result] as it is, the row is appended to the history, and
    the id of the new row is returned; no exception is raised. *)
Theorem update_results_writes_any_outcome
    (actual_result : Value) (w : World) (m : DatabaseManager) :
  db_manager (self w) = Some m →
  manager_truth m = true →
  save_failure (db w) = None →
  ∃ w',
    update_results actual_result w
      = (Return (VInt (next_id (game_results (db w)))), w') ∧
    game_results (db w') =
      game_results (db w) ++
        [mkRow (next_id (game_results (db w))) actual_result (now w) VNone 1] ∧
    db_calls (db w') =
      db_calls (db w) ++ [SaveResult actual_result (now w) VNone 1].
Proof.
  intros Hm Ht Hs. eexists. split.
  - by apply (update_results_saved actual_result w m).
  - done.
Qed.

Lemma update_results_writes_any_outcome_witness :
  ∃ w',
    update_results (VStr "X") Scenario.world_A = (Return (VInt 6), w') ∧
    game_results (db w') =
      Scenario.history Scenario.window_A ++
        [mkRow 6 (VStr "X") Scenario.stamp VNone 1] ∧
    db_calls (db w') = [SaveResult (VStr "X") Scenario.stamp VNone 1].
Proof.
  apply (update_results_writes_any_outcome (VStr "X") Scenario.world_A
           Scenario.manager); reflexivity.
Defined.

(** C4, as stated, fails: the write fails, and the caller gets an
    ordinary return value instead of an exception. *)
Lemma failed_write_is_not_raised :
  truthy manager_truth (db_manager (self Scenario.world_failing)) = true ∧
  is_Some (save_failure (db Scenario.world_failing)) ∧
  ¬ surfaces_failure (VStr "B") Scenario.world_failing.
Proof.
  split; [reflexivity|]. split; [by eexists|].
  intros (e & w' & Hrun).
  rewrite (update_results_failed _ _ Scenario.manager Scenario.disk_full)
    in Hrun by reflexivity.
  discriminate Hrun.
Qed.

(** C4, amended: when the write of the actual outcome fails,
    [update_results] catches the exception, logs it at level ERROR with
    the exception's message, and returns -1 (the error value its
    docstring announces); the exception itself does not reach the
    caller, and the history is left as it was. *)
Theorem failed_write_returns_minus_one
    (actual_result : Value) (w : World) (m : DatabaseManager) (e : Exn) :
  db_manager (self w) = Some m →
  manager_truth m = true →
  save_failure (db w) = Some e →
  ∃ w',
    update_results actual_result w = (Return (VInt (-1)), w') ∧
    log w' = log w ++ [mkLog ERROR "Sonuç güncelleme hatası: {}" [VStr (str e)]] ∧
    game_results (db w') = game_results (db w).
Proof.
  intros Hm Ht Hs. eexists. split.
  - by apply (update_results_failed actual_result w m e).
  - done.
Qed.

Lemma failed_write_returns_minus_one_witness :
  ∃ w',
    update_results (VStr "B") Scenario.world_failing = (Return (VInt (-1)), w') ∧
    log w' = [mkLog ERROR "Sonuç güncelleme hatası: {}"
                [VStr "database or disk is full"]] ∧
    game_results (db w') = Scenario.history Scenario.window_A.
Proof.
  apply (failed_write_returns_minus_one (VStr "B") Scenario.world_failing
           Scenario.manager Scenario.disk_full); reflexivity.
Defined.

(** ** Registration *)

Lemma register_algorithm_run (a : Algorithm) (w : World) :
  register_algorithm a w =
    (Return (),
     mkWorld
       (mkPredictionEngine (algorithms (self w) ++ [a])
          (deep_learning_model (self w)) (result_aggregator (self w))
          (db_manager (self w)))
       (db w)
       (log w ++ [mkLog INFO "Algoritma kaydedildi: {}" [VStr (name a)]])
       (now w)).
Proof. reflexivity. Qed.

(** C9, as stated, fails: after two registrations under the name S1
    the engine holds two active entries with that name. *)
Lemma same_name_registered_twice :
  name Scenario.S1 = name Scenario.S1' ∧
  names_unique (self Scenario.world_0) ∧
  ¬ registration_keeps_names_unique Scenario.S1 Scenario.S1' Scenario.world_0.
Proof.
  split; [reflexivity|]. split; [constructor|].
  intros H. specialize (H _ eq_refl).
  unfold names_unique in H; simpl in H.
  apply NoDup_cons_1_1 in H. apply H. constructor.
Qed.

(** C9, amended: registration appends.  For every pair of registration
    calls with strategies bearing the same name, both strategies are
    kept, in call order, at the end of the list of registered
    algorithms: the second is neither rejected nor does it replace the
    first, so the names are not unique afterwards. *)
Theorem registration_appends (a b : Algorithm) (w : World) :
  name a = name b →
  ∃ w',
    (register_algorithm a;; register_algorithm b) w = (Return (), w') ∧
    algorithms (self w') = algorithms (self w) ++ [a; b] ∧
    ¬ names_unique (self w').
Proof.
  intros Hname. eexists. split; [reflexivity|]. simpl.
  split; [by rewrite <- app_assoc|].
  unfold names_unique; simpl.
  rewrite <- app_assoc, fmap_app; simpl. rewrite Hname.
  intros [_ [_ H]]%NoDup_app.
  apply NoDup_cons_1_1 in H. apply H. constructor.
Qed.

Lemma registration_appends_witness :
  ∃ w',
    (register_algorithm Scenario.S1;; register_algorithm Scenario.S1')
      Scenario.world_0 = (Return (), w') ∧
    algorithms (self w') = [] ++ [Scenario.S1; Scenario.S1'] ∧
    ¬ names_unique (self w').
Proof.
  apply (registration_appends Scenario.S1 Scenario.S1' Scenario.world_0).
  reflexivity.
Defined.

(** ** The statistics query *)

Lemma get_algorithm_stats_run (w : World) :
  get_algorithm_stats w =
    (Return
       ((get_info <$> algorithms (self w)) ++
        match deep_learning_model (self w) with
        | Some model =>
            if obj_truth model && hasattr model "trained"
            then [lstm_stats model] else []
        | None => []
        end),
     w).
Proof.
  destruct w as [e d l n].
  unfold get_algorithm_stats, mbind, M_bind, get_self; simpl.
  destruct (deep_learning_model e) as [model|]; simpl.
  - destruct (obj_truth model && hasattr model "trained"); simpl;
      by rewrite ?app_nil_r.
  - by rewrite app_nil_r.
Qed.

Lemma stats_of_strategy (e : PredictionEngine) (tl : list Value) (i : nat)
    (a : Algorithm) :
  algorithms e !! i = Some a →
  ((get_info <$> algorithms e) ++ tl) !! i = Some (get_info a).
Proof.
  intros Hi. rewrite lookup_app_l.
  - by rewrite list_lookup_fmap, Hi.
  - rewrite length_fmap. by eapply lookup_lt_Some.
Qed.

Lemma hasattr_spec (o : Object) (a : string) :
  hasattr o a = true ↔ is_Some (obj_attrs o !! a).
Proof. unfold hasattr. apply bool_decide_eq_true. Qed.

(** C7, as stated, fails: a learning model that is set but whose
    [trained] flag is false still gets an entry. *)
Lemma untrained_model_is_listed :
  marked_trained (self Scenario.world_untrained) = false ∧
  ¬ stats_for_trained_only Scenario.world_untrained.
Proof.
  split; [reflexivity|].
  intros (stats & w' & Hrun & Hlen).
  rewrite get_algorithm_stats_run in Hrun.
  injection Hrun as <- _. vm_compute in Hlen. discriminate Hlen.
Qed.

(** C7, amended: [get_algorithm_stats] returns exactly one summary per
    registered strategy, in registration order, plus one summary for
    the learning model if and only if the model is set, is truthy and
    has an attribute [trained].  The value of the flag does not
    matter: it is reported in the entry's field [trained], so a set
    but untrained model contributes an entry that says so. *)
Theorem stats_entries (w : World) :
  ∃ stats,
    get_algorithm_stats w = (Return stats, w) ∧
    (∀ i a, algorithms (self w) !! i = Some a →
            stats !! i = Some (get_info a)) ∧
    (length stats = length (algorithms (self w)) ∨
     length stats = S (length (algorithms (self w)))) ∧
    (length stats = S (length (algorithms (self w))) ↔
       ∃ model, deep_learning_model (self w) = Some model ∧
                obj_truth model = true ∧
                is_Some (obj_attrs model !! "trained")) ∧
    (∀ s, stats !! length (algorithms (self w)) = Some s →
       ∃ model, deep_learning_model (self w) = Some model ∧
                item "name" s = Some (VStr "LSTM") ∧
                item "trained" s = obj_attrs model !! "trained").
Proof.
  eexists. split; [apply get_algorithm_stats_run|].
  split; [intros i a; apply stats_of_strategy|].
  rewrite length_app, length_fmap.
  destruct (deep_learning_model (self w)) as [model|]; simpl.
  - destruct (obj_truth model) eqn:Ht, (hasattr model "trained") eqn:Hh; simpl;
      rewrite ?Nat.add_0_r, ?Nat.add_1_r.
    1: apply hasattr_spec in Hh.
    2: assert (¬ is_Some (obj_attrs model !! "trained"))
         by (rewrite <- hasattr_spec; congruence).
    all: repeat split; auto.
    all: try (intros; lia).
    all: try (intros (m' & [= <-] & ? & ?); congruence).
    all: try (intros s Hs; rewrite lookup_app_r, length_fmap, Nat.sub_diag in Hs
                by (rewrite length_fmap; lia); simpl in Hs; try discriminate Hs).
    + intros _. by exists model.
    + injection Hs as <-. exists model. repeat split.
      simpl. unfold getattr. by destruct Hh as [v ->].
  - rewrite Nat.add_0_r. repeat split; auto.
    + intros; lia.
    + intros (m' & [=] & _).
    + intros s Hs. rewrite lookup_app_r, length_fmap, Nat.sub_diag in Hs
        by (rewrite length_fmap; lia). discriminate Hs.
Qed.

(** C8, as stated, fails for the learning model's entry: the model
    carries the weight 2.0, the entry says 1.5. *)
Lemma model_weight_is_constant :
  obj_attrs Scenario.trained !! "weight" = Some (VFloat (2 # 1)) ∧
  ¬ stats_are_current Scenario.world_trained.
Proof.
  split; [reflexivity|].
  intros H.
  destruct (H _ _ (get_algorithm_stats_run _)) as [_ Hmodel].
  destruct (Hmodel Scenario.trained (lstm_stats Scenario.trained)
              eq_refl eq_refl) as [Hweight _].
  specialize (Hweight _ eq_refl). discriminate Hweight.
Qed.

(** C8, amended: for every call to [get_algorithm_stats], the summary
    of each registered strategy carries that strategy's weight and
    accuracy as they are at call time, and the learning model's entry
    carries the model's accuracy attribute as it is at call time (0.0
    when the model has none); the weight of the learning model's entry
    is the constant 1.5, whatever the model holds. *)
Theorem stats_values (w : World) :
  ∃ stats,
    get_algorithm_stats w = (Return stats, w) ∧
    (∀ i a, algorithms (self w) !! i = Some a → reports_strategy stats i a) ∧
    (∀ model s,
       deep_learning_model (self w) = Some model →
       stats !! length (algorithms (self w)) = Some s →
       item "weight" s = Some (VFloat (3 # 2)) ∧
       item "accuracy" s = Some (getattr model "accuracy" (VFloat (0 # 1)))).
Proof.
  eexists. split; [apply get_algorithm_stats_run|]. split.
  - intros i a Hi. exists (get_info a).
    split; [by apply stats_of_strategy|done].
  - intros model s -> Hs.
    rewrite lookup_app_r, length_fmap, Nat.sub_diag in Hs
      by (rewrite length_fmap; lia).
    destruct (obj_truth model && hasattr model "trained"); simpl in Hs;
      [|discriminate Hs].
    by injection Hs as <-.
Qed.

(** The learning model's accuracy is read afresh at each call: after
    the attribute changes, the next call reports the new value. *)
Example stats_follow_model_accuracy :
  let retrained :=
    mkObject true (<[ "accuracy" := VFloat (7 # 10) ]> (obj_attrs Scenario.trained)) in
  (item "accuracy" <$> last (Scenario.stats_with_model Scenario.trained),
   item "accuracy" <$> last (Scenario.stats_with_model retrained))
  = (Some (Some (VFloat (3 # 5))), Some (Some (VFloat (7 # 10)))).
Proof. reflexivity. Qed.

(** ** The window read from the history *)

Section Window.

#[local] Instance newer_total : Total newer.
Proof. intros r1 r2. unfold newer. lia. Qed.

#[local] Instance newer_trans : Transitive newer.
Proof. intros r1 r2 r3. unfold newer. lia. Qed.

#[local] Instance older_trans : Transitive (flip newer).
Proof. intros r1 r2 r3. unfold flip, newer. lia. Qed.

Lemma window_rows_length (rows : list Row) :
  length (window_rows rows) = Nat.min LIMIT (length rows).
Proof.
  unfold window_rows.
  by rewrite length_reverse, length_take, (merge_sort_Permutation newer rows).
Qed.

Lemma window_rows_split (rows : list Row) :
  rows ≡ₚ drop LIMIT (merge_sort newer rows) ++ window_rows rows.
Proof.
  unfold window_rows. rewrite reverse_Permutation.
  rewrite (Permutation_app_comm (drop _ _)), take_drop.
  symmetry. apply merge_sort_Permutation.
Qed.

Lemma window_rows_most_recent (rows : list Row) (o r : Row) :
  o ∈ drop LIMIT (merge_sort newer rows) →
  r ∈ window_rows rows →
  row_id o ≤ row_id r.
Proof.
  unfold window_rows. rewrite elem_of_reverse. intros Ho Hr.
  pose proof (StronglySorted_merge_sort newer rows) as Hs.
  rewrite <- (take_drop LIMIT (merge_sort newer rows)) in Hs.
  exact (StronglySorted_app_1_elem_of newer _ _ _ _ Hs Hr Ho).
Qed.

Lemma window_rows_chronological (rows : list Row) :
  chronological (window_rows rows).
Proof.
  unfold chronological, window_rows.
  change (StronglySorted (flip newer)
            (reverse (take LIMIT (merge_sort newer rows)))).
  apply Sorted_StronglySorted; [exact older_trans|].
  apply Sorted_reverse, StronglySorted_Sorted.
  pose proof (StronglySorted_merge_sort newer rows) as Hs.
  rewrite <- (take_drop LIMIT (merge_sort newer rows)) in Hs.
  by apply StronglySorted_app_1_l in Hs.
Qed.

Lemma window_rows_nonempty (rows : list Row) :
  rows ≠ [] → take LIMIT (merge_sort newer rows) ≠ [].
Proof.
  intros Hne Hnil. apply (f_equal length) in Hnil.
  rewrite length_take, (merge_sort_Permutation newer rows) in Hnil.
  destruct rows; [done|]. simpl in Hnil. unfold LIMIT in Hnil. lia.
Qed.

End Window.

(** What the block [if data is None] of [predict] does on a store that
    answers and holds at least one outcome. *)
Lemma predict_data_fetch (w : World) (m : DatabaseManager) :
  db_manager (self w) = Some m →
  manager_truth m = true →
  connect_failure (db w) = None →
  game_results (db w) ≠ [] →
  predict_data VNone w =
    (Return (Next (VDict [("last_results",
                           VList (row_result <$> window_rows (game_results (db w))))])),
     mkWorld (self w)
       (mkDatabase (game_results (db w)) None (save_failure (db w))
          (db_calls (db w) ++
             [GetConnection; Cursor;
              Execute "SELECT * FROM game_results ORDER BY id DESC LIMIT 20";
              FetchAll]))
       (log w) (now w)).
Proof.
  destruct w as [e [rows cf sf calls] l n]; simpl.
  intros Hm Ht -> Hrows.
  apply window_rows_nonempty in Hrows.
  unfold predict_data, mbind, M_bind, get_self; simpl.
  rewrite Hm; simpl. rewrite Ht; simpl.
  unfold window_rows. rewrite fmap_reverse, <- !app_assoc; simpl.
  by destruct (take LIMIT (merge_sort newer rows)).
Qed.

(** C6: on a configured history store that holds at least one outcome,
    [predict] called without data builds its window from the most
    recent outcomes, at most 20 of them: the rows selected
    most-recent-first are reversed, so the window lists their results
    oldest first.  The window is no longer than 20, every row left out
    is at least as old as every row in it, and the rows in it are in
    chronological order. *)
Theorem predict_window_from_history (w : World) (m : DatabaseManager) :
  db_manager (self w) = Some m →
  manager_truth m = true →
  connect_failure (db w) = None →
  game_results (db w) ≠ [] →
  ∃ (older recent : list Row) (w' : World),
    predict_data VNone w =
      (Return (Next (VDict [("last_results", VList (row_result <$> recent))])), w') ∧
    game_results (db w) ≡ₚ older ++ recent ∧
    length recent = Nat.min 20 (length (game_results (db w))) ∧
    (length recent ≤ 20)%nat ∧
    (∀ o r, o ∈ older → r ∈ recent → row_id o ≤ row_id r) ∧
    chronological recent.
Proof.
  intros Hm Ht Hc Hrows.
  exists (drop LIMIT (merge_sort newer (game_results (db w)))),
         (window_rows (game_results (db w))).
  eexists. split; [by apply (predict_data_fetch w m)|].
  split; [apply window_rows_split|].
  split; [apply window_rows_length|].
  split; [rewrite window_rows_length; unfold LIMIT; lia|].
  split; [apply window_rows_most_recent|apply window_rows_chronological].
Qed.

Lemma predict_window_from_history_witness :
  ∃ (older recent : list Row) (w' : World),
    predict_data VNone Scenario.world_25 =
      (Return (Next (VDict [("last_results", VList (row_result <$> recent))])), w') ∧
    game_results (db Scenario.world_25) ≡ₚ older ++ recent ∧
    length recent = Nat.min 20 (length (game_results (db Scenario.world_25))) ∧
    (length recent ≤ 20)%nat ∧
    (∀ o r, o ∈ older → r ∈ recent → row_id o ≤ row_id r) ∧
    chronological recent.
Proof.
  apply (predict_window_from_history Scenario.world_25 Scenario.manager);
    [reflexivity | reflexivity | reflexivity | discriminate].
Defined.

(** Of 25 stored outcomes the window keeps the last 20, oldest first. *)
Example window_of_25 :
  (predict_data VNone Scenario.world_25).1 =
    Return (Next (VDict [("last_results",
                          VList (drop 5 (Scenario.alternating 25)))])).
Proof. vm_compute. reflexivity. Qed.

(** ** The prediction cycle *)

(** The block that saves the prediction never raises: what goes wrong
    in it is caught and logged. *)
Lemma predict_save_returns (save_prediction : Value) (w : World) :
  (predict_save save_prediction w).1 = Return ().
Proof.
  destruct w as [eng [rows cf sf calls] l n].
  unfold predict_save, try_except, mbind, M_bind, get_self; simpl.
  destruct (truth save_prediction && truthy manager_truth (db_manager eng));
    simpl; [|reflexivity].
  by destruct cf.
Qed.

(** The block that reads the history returns [None], goes on with a
    value for [data], or lets the failure to connect escape. *)
Lemma predict_data_result (data : Value) (w : World) :
  (predict_data data w).1 = Return (Returned VNone) ∨
  (∃ d, (predict_data data w).1 = Return (Next d)) ∨
  (∃ e, (predict_data data w).1 = Raise e ∧
        connect_failure (db w) = Some e ∧ data = VNone).
Proof.
  destruct w as [eng [rows cf sf calls] l n].
  destruct data; try (right; left; eexists; reflexivity).
  unfold predict_data, mbind, M_bind, get_self; simpl.
  destruct (truthy manager_truth (db_manager eng)); simpl; [|by left].
  destruct cf as [e|]; simpl; [right; right; by exists e|].
  destruct (take LIMIT (merge_sort newer rows)); simpl; [by left|].
  right; left; eexists; reflexivity.
Qed.

(** Every call of [predict] that returns, returns [None]; the only
    exception that can escape is the one raised when the connection
    for reading the history cannot be opened. *)
Lemma predict_result (data save_prediction : Value) (w : World) :
  (predict data save_prediction w).1 = Return VNone ∨
  ∃ e, (predict data save_prediction w).1 = Raise e ∧
       connect_failure (db w) = Some e ∧ data = VNone.
Proof.
  unfold predict, mbind, M_bind.
  destruct (predict_data_result data w) as [H|[[d H]|(e & H & Hc & Hd)]];
    destruct (predict_data data w) as [r w1]; simpl in H; subst r.
  - by left.
  - left. pose proof (predict_save_returns save_prediction w1) as Hs.
    destruct (predict_save save_prediction w1) as [r w2]; simpl in Hs.
    by subst r.
  - right. by exists e.
Qed.

(** C1: the engine of scenario A holds the strategies S1 and S2, which
    answer the window [P,B,P,P,B] with the labels B and P, neither of
    them abstaining.  [predict] with that window and the save flag set
    asks the database manager for a connection and a cursor and
    returns [None]: no strategy is asked, nothing is aggregated, no
    consensus is returned. *)
Theorem predict_scenario_A :
  label (alg_predict Scenario.S1 Scenario.window_A) = Some "B" ∧
  label (alg_predict Scenario.S2 Scenario.window_A) = Some "P" ∧
  predict Scenario.data_A (VBool true) Scenario.world_A
    = (Return VNone, Scenario.world_A_predicted).
Proof. repeat split. Qed.

(** C2: in scenario C the outcome B is resolved after the prediction
    cycle of scenario A, where S1 answered B and S2 answered P.  The
    outcome is persisted as row 6, and both strategies keep their
    records as they were: no strategy is told about the outcome, and
    total_predictions and correct_predictions stay at 0 for both. *)
Theorem update_results_scenario_C :
  ∃ w',
    (predict Scenario.data_A (VBool true);; update_results (VStr "B"))
      Scenario.world_A = (Return (VInt 6), w') ∧
    row_result <$> last (game_results (db w')) = Some (VStr "B") ∧
    algorithms (self w') = [Scenario.S1; Scenario.S2] ∧
    total_predictions <$> algorithms (self w') = [0; 0] ∧
    correct_predictions <$> algorithms (self w') = [0; 0].
Proof. eexists. repeat split. Qed.

(** ** The other paths, on concrete worlds *)

(** Without data and without a database manager, [predict] logs an
    error and returns [None]. *)
Example predict_without_manager :
  predict VNone (VBool true) Scenario.world_0 =
    (Return VNone,
     mkWorld (self Scenario.world_0) (db Scenario.world_0)
       [mkLog ERROR
          "Veritabanı yöneticisi bulunamadı. Veri sağlayın veya DB yöneticisi ayarlayın."
          []]
       Scenario.stamp).
Proof. reflexivity. Qed.

(** Without data and with an empty history, [predict] logs a warning
    and returns [None]. *)
Example predict_on_empty_history :
  let w := Scenario.world Scenario.engine_A (Scenario.store [] None) in
  (predict VNone (VBool true) w).1 = Return VNone ∧
  log (predict VNone (VBool true) w).2 =
    [mkLog WARNING "Veritabanında sonuç bulunamadı. Tahmin yapılamıyor." []].
Proof. split; reflexivity. Qed.

(** A connection that cannot be opened escapes from the block that
    reads the history, and is caught and logged in the block that
    saves the prediction. *)
Example predict_connection_failure :
  let w := Scenario.world Scenario.engine_A
             (mkDatabase (Scenario.history Scenario.window_A)
                (Some Scenario.disk_full) None []) in
  (predict VNone (VBool true) w).1 = Raise Scenario.disk_full ∧
  (predict Scenario.data_A (VBool true) w).1 = Return VNone ∧
  log (predict Scenario.data_A (VBool true) w).2 =
    [mkLog ERROR "Tahmin kaydetme hatası: {}" [VStr "database or disk is full"]].
Proof. repeat split. Qed.

(** Without a database manager, [update_results] logs an error and
    returns -1 without calling anything. *)
Example update_results_without_manager :
  update_results (VStr "B") Scenario.world_0 =
    (Return (VInt (-1)),
     mkWorld (self Scenario.world_0) (db Scenario.world_0)
       [mkLog ERROR "Veritabanı yöneticisi bulunamadı. Sonuç kaydedilemedi." []]
       Scenario.stamp).
Proof. reflexivity. Qed.

(** The statistics of the engine with the untrained model: the two
    strategies, then the entry of the model with its flag. *)
Example stats_with_untrained_model :
  Scenario.stats_with_model Scenario.untrained =
    [get_info Scenario.S1; get_info Scenario.S2;
     VDict [("name", VStr "LSTM"); ("weight", VFloat (3 # 2));
            ("accuracy", VFloat (0 # 1)); ("trained", VBool false);
            ("model_version", VStr "1.0")]].
Proof. reflexivity. Qed.

(** ** The prediction cycle only reads the history *)

Section ReadsOnly.

Lemma reads_only_ret {A} (a : A) : reads_only (mret a).
Proof. by intros w. Qed.

Lemma reads_only_raise {A} (e : Exn) : reads_only (@raise A e).
Proof. by intros w. Qed.

Lemma reads_only_bind {A B} (m : M A) (f : A → M B) :
  reads_only m → (∀ a, reads_only (f a)) → reads_only (m ≫= f).
Proof.
  intros Hm Hf w. unfold mbind, M_bind.
  specialize (Hm w). destruct (m w) as [[a|e] w']; simpl in *; [|done].
  destruct (Hf a w') as (-> & -> & -> & ->). done.
Qed.

Lemma reads_only_try {A} (m : M A) (h : Exn → M A) :
  reads_only m → (∀ e, reads_only (h e)) → reads_only (try_except m h).
Proof.
  intros Hm Hh w. unfold try_except.
  specialize (Hm w). destruct (m w) as [[a|e] w']; simpl in *; [done|].
  destruct (Hh e w') as (-> & -> & -> & ->). done.
Qed.

Lemma reads_only_get_self : reads_only get_self.
Proof. by intros w. Qed.

Lemma reads_only_get_db : reads_only get_db.
Proof. by intros w. Qed.

Lemma reads_only_logger lvl text args : reads_only (logger lvl text args).
Proof. by intros w. Qed.

Lemma reads_only_called (c : DbCall) : is_write c = false → reads_only (called c).
Proof.
  intros Hc w. unfold called, mbind, M_bind; simpl.
  rewrite filter_app, filter_cons, Hc; simpl.
  by rewrite filter_nil, app_nil_r.
Qed.

Lemma reads_only_get_connection : reads_only _get_connection.
Proof.
  unfold _get_connection.
  apply reads_only_bind; [by apply reads_only_called|intros _].
  apply reads_only_bind; [apply reads_only_get_db|intros d].
  destruct (connect_failure d);
    [apply reads_only_raise|apply reads_only_ret].
Qed.

Lemma reads_only_cursor : reads_only cursor.
Proof. by apply reads_only_called. Qed.

Lemma reads_only_select : reads_only select_last_results.
Proof.
  unfold select_last_results.
  repeat (apply reads_only_bind; [by apply reads_only_called|intros _]).
  apply reads_only_bind; [apply reads_only_get_db|intros d].
  apply reads_only_ret.
Qed.

End ReadsOnly.

Create HintDb reads discriminated.

#[export] Hint Resolve reads_only_ret reads_only_raise reads_only_get_self
  reads_only_get_db reads_only_logger reads_only_get_connection
  reads_only_cursor reads_only_select : reads.

Ltac reads :=
  repeat first
    [ solve [auto with reads]
    | apply reads_only_bind; [| intros ?]
    | apply reads_only_try; [| intros ?]
    | match goal with
      | |- reads_only (match ?x with _ => _ end) => destruct x
      end ].

(** X1: [predict] never writes to the history.  For every [data],
    every [save_prediction] flag and every world, also with the flag
    set and a database manager that answers, the table of outcomes and
    the store's condition are the same after the call as before it,
    and the database manager has received no [save_result] call. *)
Theorem predict_reads_only (data save_prediction : Value) (w : World) :
  let w' := (predict data save_prediction w).2 in
  game_results (db w') = game_results (db w) ∧
  connect_failure (db w') = connect_failure (db w) ∧
  save_failure (db w') = save_failure (db w) ∧
  filter is_write (db_calls (db w')) = filter is_write (db_calls (db w)).
Proof.
  assert (reads_only (predict data save_prediction)) as H.
  { unfold predict, predict_data, predict_save. reads. }
  exact (H w).
Qed.

(** ** The paths of [predict] *)

Ltac run_predict :=
  unfold predict, predict_data, predict_save, try_except, mbind, M_bind,
    get_self, logged, db_called, fetch_calls; simpl.

(** X2: with data supplied, and the save flag falsy or no usable
    database manager, [predict] does nothing at all: it returns [None]
    and the world is exactly what it was (no call on the database
    manager, nothing logged). *)
Theorem predict_with_data_is_idle (data save_prediction : Value) (w : World) :
  data ≠ VNone →
  truth save_prediction && truthy manager_truth (db_manager (self w)) = false →
  predict data save_prediction w = (Return VNone, w).
Proof.
  destruct w as [e [rows cf sf calls] l n]; simpl. intros Hd Hs.
  destruct data; try done; run_predict; by rewrite Hs.
Qed.

Lemma predict_with_data_is_idle_witness :
  predict Scenario.data_A (VBool false) Scenario.world_A
  = (Return VNone, Scenario.world_A).
Proof.
  apply (predict_with_data_is_idle Scenario.data_A (VBool false)
           Scenario.world_A); [discriminate|reflexivity].
Defined.

(** X3: with data supplied, the save flag truthy and a database
    manager set, [predict] asks for a connection and a cursor and
    returns [None]; when the connection cannot be opened the exception
    is caught, logged at level ERROR with its message, and [None] is
    returned all the same. *)
Theorem predict_with_data_swallows_failure
    (data save_prediction : Value) (w : World) :
  data ≠ VNone →
  truth save_prediction = true →
  truthy manager_truth (db_manager (self w)) = true →
  predict data save_prediction w =
    (Return VNone,
     match connect_failure (db w) with
     | None => db_called [GetConnection; Cursor] w
     | Some e =>
         logged (mkLog ERROR "Tahmin kaydetme hatası: {}" [VStr (str e)])
           (db_called [GetConnection] w)
     end).
Proof.
  destruct w as [e [rows cf sf calls] l n]; simpl. intros Hd Hs Hm.
  destruct data; try done; run_predict; rewrite Hs, Hm; simpl;
    destruct cf; simpl; by rewrite <- ?app_assoc.
Qed.

Lemma predict_with_data_swallows_failure_witness :
  let w := Scenario.world Scenario.engine_A
             (mkDatabase [] (Some Scenario.disk_full) None []) in
  predict Scenario.data_A (VBool true) w =
    (Return VNone,
     logged (mkLog ERROR "Tahmin kaydetme hatası: {}"
               [VStr "database or disk is full"])
       (db_called [GetConnection] w)).
Proof.
  apply (predict_with_data_swallows_failure Scenario.data_A (VBool true)
           (Scenario.world Scenario.engine_A
              (mkDatabase [] (Some Scenario.disk_full) None [])));
    [discriminate|reflexivity|reflexivity].
Defined.

(** X4: without data and without a usable database manager (none set,
    or a falsy one), [predict] logs one error and returns [None]; the
    database is not touched, whatever the save flag. *)
Theorem predict_without_history_store (save_prediction : Value) (w : World) :
  truthy manager_truth (db_manager (self w)) = false →
  predict VNone save_prediction w =
    (Return VNone,
     logged (mkLog ERROR
               "Veritabanı yöneticisi bulunamadı. Veri sağlayın veya DB yöneticisi ayarlayın."
               []) w).
Proof.
  destruct w as [e [rows cf sf calls] l n]; simpl. intros Hm.
  run_predict. by rewrite Hm.
Qed.

Lemma predict_without_history_store_witness :
  let w := Scenario.world
             (mkPredictionEngine [Scenario.S1] None None
                (Some (mkDatabaseManager false)))
             (Scenario.store (Scenario.history Scenario.window_A) None) in
  predict VNone (VBool true) w =
    (Return VNone,
     logged (mkLog ERROR
               "Veritabanı yöneticisi bulunamadı. Veri sağlayın veya DB yöneticisi ayarlayın."
               []) w).
Proof.
  apply (predict_without_history_store (VBool true)
           (Scenario.world
              (mkPredictionEngine [Scenario.S1] None None
                 (Some (mkDatabaseManager false)))
              (Scenario.store (Scenario.history Scenario.window_A) None))).
  reflexivity.
Defined.

(** X5: without data, on a database that answers but holds no outcome,
    [predict] reads the (empty) last results, logs one warning and
    returns [None] at once: the block that saves the prediction is not
    reached, so no second connection is opened even with the save flag
    set. *)
Theorem predict_on_empty_table (save_prediction : Value) (w : World) :
  truthy manager_truth (db_manager (self w)) = true →
  connect_failure (db w) = None →
  game_results (db w) = [] →
  predict VNone save_prediction w =
    (Return VNone,
     logged (mkLog WARNING "Veritabanında sonuç bulunamadı. Tahmin yapılamıyor." [])
       (db_called fetch_calls w)).
Proof.
  destruct w as [e [rows cf sf calls] l n]; simpl. intros Hm -> ->.
  run_predict. rewrite Hm; simpl. by rewrite <- !app_assoc.
Qed.

Lemma predict_on_empty_table_witness :
  let w := Scenario.world Scenario.engine_A (Scenario.store [] None) in
  predict VNone (VBool true) w =
    (Return VNone,
     logged (mkLog WARNING "Veritabanında sonuç bulunamadı. Tahmin yapılamıyor." [])
       (db_called fetch_calls w)).
Proof.
  apply (predict_on_empty_table (VBool true)
           (Scenario.world Scenario.engine_A (Scenario.store [] None)));
    reflexivity.
Defined.

(** X6: without data, when the connection for reading the history
    cannot be opened, the exception escapes from [predict] to the
    caller: it is not caught, nothing is logged, and the only call
    made is the failed attempt to connect. *)
Theorem predict_connect_failure_escapes
    (save_prediction : Value) (w : World) (e : Exn) :
  truthy manager_truth (db_manager (self w)) = true →
  connect_failure (db w) = Some e →
  predict VNone save_prediction w = (Raise e, db_called [GetConnection] w).
Proof.
  destruct w as [eng [rows cf sf calls] l n]; simpl. intros Hm ->.
  run_predict. by rewrite Hm.
Qed.

Lemma predict_connect_failure_escapes_witness :
  let w := Scenario.world Scenario.engine_A
             (mkDatabase (Scenario.history Scenario.window_A)
                (Some Scenario.disk_full) None []) in
  predict VNone (VBool true) w =
    (Raise Scenario.disk_full, db_called [GetConnection] w).
Proof.
  apply (predict_connect_failure_escapes (VBool true)
           (Scenario.world Scenario.engine_A
              (mkDatabase (Scenario.history Scenario.window_A)
                 (Some Scenario.disk_full) None []))
           Scenario.disk_full); reflexivity.
Defined.

(** X7: without data, on a database that answers and holds at least
    one outcome, [predict] reads the last results and, with the save
    flag truthy, opens a second connection and cursor; it logs nothing
    and returns [None], the window it built being dropped. *)
Theorem predict_from_history_returns_None (save_prediction : Value) (w : World) :
  truthy manager_truth (db_manager (self w)) = true →
  connect_failure (db w) = None →
  game_results (db w) ≠ [] →
  predict VNone save_prediction w =
    (Return VNone,
     db_called (fetch_calls ++
                if truth save_prediction then [GetConnection; Cursor] else [])
       w).
Proof.
  destruct w as [e [rows cf sf calls] l n]; simpl. intros Hm -> Hrows.
  apply window_rows_nonempty in Hrows.
  run_predict. rewrite Hm; simpl.
  destruct (take LIMIT (merge_sort newer rows)); [done|]; simpl.
  destruct (truth save_prediction); simpl; rewrite ?Hm; simpl;
    unfold mret, M_ret; by rewrite <- ?app_assoc, ?app_nil_r.
Qed.

Lemma predict_from_history_returns_None_witness :
  predict VNone (VBool true) Scenario.world_25 =
    (Return VNone,
     db_called (fetch_calls ++
                if truth (VBool true) then [GetConnection; Cursor] else [])
       Scenario.world_25).
Proof.
  apply (predict_from_history_returns_None (VBool true) Scenario.world_25);
    [reflexivity|reflexivity|discriminate].
Defined.

(** ** The paths of [update_results] *)

(** X8: without a usable database manager (none set, or a falsy one)
    [update_results] logs one error and returns -1; the database
    manager receives no call and the history is untouched, whatever
    the outcome given. *)
Theorem update_results_without_store (actual_result : Value) (w : World) :
  truthy manager_truth (db_manager (self w)) = false →
  update_results actual_result w =
    (Return (VInt (-1)),
     logged (mkLog ERROR "Veritabanı yöneticisi bulunamadı. Sonuç kaydedilemedi." [])
       w).
Proof.
  destruct w as [e [rows cf sf calls] l n]; simpl. intros Hm.
  unfold update_results, mbind, M_bind, get_self, logged; simpl.
  by rewrite Hm.
Qed.

Lemma update_results_without_store_witness :
  update_results (VStr "B") Scenario.world_0 =
    (Return (VInt (-1)),
     logged (mkLog ERROR "Veritabanı yöneticisi bulunamadı. Sonuç kaydedilemedi." [])
       Scenario.world_0).
Proof.
  apply (update_results_without_store (VStr "B") Scenario.world_0).
  reflexivity.
Defined.

Lemma truthy_manager (e : PredictionEngine) :
  truthy manager_truth (db_manager e) = true →
  ∃ m, db_manager e = Some m ∧ manager_truth m = true.
Proof. destruct (db_manager e) as [m|]; [by exists m|done]. Qed.

(** X9: [update_results] never raises, and every call leaves exactly
    one log record.  Either nothing was written: the history is
    unchanged, the record is an ERROR and the result is -1; or exactly
    one row was appended, carrying the outcome as given, the current
    timestamp, no previous pattern and session 1: the record is an
    INFO and the result is the id of that row. *)
Theorem update_results_outcomes (actual_result : Value) (w : World) :
  ∃ (result : Z) (record : LogRecord) (w' : World),
    update_results actual_result w = (Return (VInt result), w') ∧
    log w' = log w ++ [record] ∧
    self w' = self w ∧
    ((result = -1 ∧ log_level record = ERROR ∧
      game_results (db w') = game_results (db w))
     ∨
     (log_level record = INFO ∧
      game_results (db w') =
        game_results (db w) ++ [mkRow result actual_result (now w) VNone 1])).
Proof.
  destruct (truthy manager_truth (db_manager (self w))) eqn:Hm.
  - apply truthy_manager in Hm as (m & Hm & Ht).
    destruct (save_failure (db w)) as [e|] eqn:Hs.
    + do 3 eexists.
      split; [by apply (update_results_failed actual_result w m e)|].
      simpl. repeat split. by left.
    + do 3 eexists.
      split; [by apply (update_results_saved actual_result w m)|].
      simpl. repeat split. by right.
  - destruct w as [e [rows cf sf calls] l n]; simpl in *.
    do 3 eexists. split.
    + unfold update_results, mbind, M_bind, get_self; simpl.
      rewrite Hm. reflexivity.
    + simpl. repeat split. by left.
Qed.

(** ** The history the engine builds *)

Section History.

#[local] Existing Instance newer_total.
#[local] Existing Instance newer_trans.

Lemma next_id_above (rows : list Row) (r : Row) :
  r ∈ rows → row_id r < next_id rows.
Proof.
  unfold next_id. induction rows as [|r' rows IH]; simpl.
  - by intros ?%elem_of_nil.
  - intros [->|Hr]%elem_of_cons; [lia|]. specialize (IH Hr). lia.
Qed.

Lemma ascending_snoc (rows : list Row) (r : Row) :
  ascending rows → row_id r = next_id rows → ascending (rows ++ [r]).
Proof.
  intros Hasc Hid. apply StronglySorted_app_2; [|done|repeat constructor].
  intros x1 x2 H1 ->%list_elem_of_singleton.
  rewrite Hid. by apply next_id_above.
Qed.

Lemma ascending_inj (rows : list Row) (r1 r2 : Row) :
  ascending rows → r1 ∈ rows → r2 ∈ rows → row_id r1 = row_id r2 → r1 = r2.
Proof.
  induction 1 as [|r rows Hasc IH Hall]; [by intros ?%elem_of_nil|].
  rewrite Forall_forall in Hall.
  intros [->|H1]%elem_of_cons [->|H2]%elem_of_cons Hid; auto.
  - specialize (Hall _ H2). lia.
  - specialize (Hall _ H1). lia.
Qed.

Lemma ascending_older (rows : list Row) :
  ascending rows → StronglySorted (flip newer) rows.
Proof.
  induction 1 as [|r rows Hasc IH Hall]; constructor; [done|].
  eapply Forall_impl; [exact Hall|]. unfold flip, newer. intros; simpl in *; lia.
Qed.

(** On a table whose ids ascend, most recent first is the table read
    backwards. *)
Lemma merge_sort_ascending (rows : list Row) :
  ascending rows → merge_sort newer rows = reverse rows.
Proof.
  intros Hasc.
  apply (Sorted_unique_strong newer).
  - intros x1 x2 H1 H2 H12 H21.
    apply (ascending_inj rows); [done| | |unfold newer in *; lia].
    + by rewrite <- (merge_sort_Permutation newer rows).
    + by rewrite <- (reverse_Permutation rows).
  - apply Sorted_merge_sort, _.
  - apply (Sorted_reverse (flip newer)), StronglySorted_Sorted.
    by apply ascending_older.
  - by rewrite merge_sort_Permutation, reverse_Permutation.
Qed.

Lemma window_rows_ascending (rows : list Row) :
  ascending rows → window_rows rows = recent rows.
Proof.
  intros Hasc. unfold window_rows, recent.
  by rewrite merge_sort_ascending, take_reverse, reverse_involutive.
Qed.

Lemma recent_fmap {A B} (f : A → B) (l : list A) :
  f <$> recent l = recent (f <$> l).
Proof. unfold recent. by rewrite fmap_drop, length_fmap. Qed.

End History.

(** What a sequence of successful resolutions does to the world. *)
Lemma resolve_all_run (outcomes : list Value) (w : World) :
  truthy manager_truth (db_manager (self w)) = true →
  save_failure (db w) = None →
  ∃ w',
    resolve_all outcomes w = (Return (), w') ∧
    row_result <$> game_results (db w') =
      (row_result <$> game_results (db w)) ++ outcomes ∧
    game_results (db w) `prefix_of` game_results (db w') ∧
    (ascending (game_results (db w)) → ascending (game_results (db w'))) ∧
    self w' = self w ∧
    connect_failure (db w') = connect_failure (db w) ∧
    save_failure (db w') = None.
Proof.
  revert w. induction outcomes as [|o os IH]; intros w Hm Hs.
  - exists w. rewrite app_nil_r. by repeat split.
  - destruct (truthy_manager _ Hm) as (m & Hdm & Ht).
    pose proof (update_results_saved o w m Hdm Ht Hs) as Hrun.
    simpl in Hrun. simpl. unfold mbind, M_bind. rewrite Hrun.
    edestruct IH as (w' & -> & Hres & Hpre & Hasc & Hself & Hcf & Hsf);
      [exact Hm|reflexivity|]. simpl in *.
    exists w'. split; [done|].
    split; [by rewrite Hres, fmap_app, <- app_assoc|].
    split; [etrans; [|exact Hpre]; by apply prefix_app_r|].
    split; [intros H; by apply Hasc, ascending_snoc|done].
Qed.

(** X10: on a database manager whose writes succeed, resolving a
    sequence of outcomes appends them to the history in call order,
    one row each, below the rows already there; nothing already stored
    is changed or removed, and the engine object is left as it was. *)
Theorem resolve_all_appends (outcomes : list Value) (w : World) :
  truthy manager_truth (db_manager (self w)) = true →
  save_failure (db w) = None →
  ∃ w',
    resolve_all outcomes w = (Return (), w') ∧
    row_result <$> game_results (db w') =
      (row_result <$> game_results (db w)) ++ outcomes ∧
    game_results (db w) `prefix_of` game_results (db w') ∧
    self w' = self w.
Proof.
  intros Hm Hs.
  destruct (resolve_all_run outcomes w Hm Hs)
    as (w' & Hrun & Hres & Hpre & _ & Hself & _).
  by exists w'.
Qed.

Lemma resolve_all_appends_witness :
  ∃ w',
    resolve_all [VStr "B"; VStr "T"] Scenario.world_A = (Return (), w') ∧
    row_result <$> game_results (db w') =
      (row_result <$> game_results (db Scenario.world_A)) ++ [VStr "B"; VStr "T"] ∧
    game_results (db Scenario.world_A) `prefix_of` game_results (db w') ∧
    self w' = self Scenario.world_A.
Proof.
  apply (resolve_all_appends [VStr "B"; VStr "T"] Scenario.world_A);
    reflexivity.
Defined.

(** On a table whose ids ascend, the block that reads the history
    hands on the stored results, cut to the last [LIMIT]. *)
Lemma predict_data_ascending (w : World) :
  truthy manager_truth (db_manager (self w)) = true →
  connect_failure (db w) = None →
  game_results (db w) ≠ [] →
  ascending (game_results (db w)) →
  predict_data VNone w =
    (Return (Next (VDict [("last_results",
                           VList (recent (row_result <$> game_results (db w))))])),
     db_called fetch_calls w).
Proof.
  intros (m & Hdm & Ht)%truthy_manager Hc Hrows Hasc.
  rewrite (predict_data_fetch w m Hdm Ht Hc Hrows).
  rewrite window_rows_ascending, recent_fmap by done.
  destruct w as [e [rows cf sf calls] l n]; simpl in *. by subst cf.
Qed.

(** X11: when the ids ascend along the table, the window [predict]
    builds without data is the stored results themselves, in stored
    order, cut to the last 20: the whole history when it holds at most
    20 outcomes, its last 20 otherwise. *)
Theorem window_of_ascending_table (w : World) :
  truthy manager_truth (db_manager (self w)) = true →
  connect_failure (db w) = None →
  game_results (db w) ≠ [] →
  ascending (game_results (db w)) →
  (predict_data VNone w).1 =
    Return (Next (VDict [("last_results",
                          VList (recent (row_result <$> game_results (db w))))])).
Proof.
  intros Hm Hc Hrows Hasc. by rewrite predict_data_ascending.
Qed.

Lemma window_of_ascending_table_witness :
  (predict_data VNone Scenario.world_25).1 =
    Return (Next (VDict [("last_results",
                          VList (recent (row_result <$>
                                          game_results (db Scenario.world_25))))])).
Proof.
  apply (window_of_ascending_table Scenario.world_25);
    [reflexivity|reflexivity|discriminate|cbv; repeat constructor].
Defined.

(** X12: outcomes resolved through [update_results] come back in the
    next window.  On a history whose ids ascend and a database manager
    that answers, after resolving a sequence of outcomes the window
    built by [predict] without data is the last 20 of the results
    stored before followed by the outcomes just resolved, oldest
    first. *)
Theorem resolved_outcomes_in_window (outcomes : list Value) (w : World) :
  truthy manager_truth (db_manager (self w)) = true →
  connect_failure (db w) = None →
  save_failure (db w) = None →
  ascending (game_results (db w)) →
  (row_result <$> game_results (db w)) ++ outcomes ≠ [] →
  ((resolve_all outcomes;; predict_data VNone) w).1 =
    Return (Next (VDict [("last_results",
                          VList (recent ((row_result <$> game_results (db w))
                                         ++ outcomes)))])).
Proof.
  intros Hm Hc Hs Hasc Hne.
  destruct (resolve_all_run outcomes w Hm Hs)
    as (w' & Hrun & Hres & _ & Hasc' & Hself & Hcf & _).
  unfold mbind, M_bind. rewrite Hrun.
  rewrite predict_data_ascending; simpl.
  - by rewrite Hres.
  - by rewrite Hself.
  - by rewrite Hcf.
  - intros Hnil. by rewrite Hnil in Hres.
  - by apply Hasc'.
Qed.

Lemma resolved_outcomes_in_window_witness :
  ((resolve_all (Scenario.alternating 30);; predict_data VNone)
     Scenario.world_A).1 =
    Return (Next (VDict [("last_results",
                          VList (recent
                                   ((row_result <$> game_results (db Scenario.world_A))
                                    ++ Scenario.alternating 30)))])).
Proof.
  apply (resolved_outcomes_in_window (Scenario.alternating 30) Scenario.world_A);
    [reflexivity|reflexivity|reflexivity|cbv; repeat constructor|discriminate].
Defined.

(** ** Configuring the engine *)

(** X13: how the configuring calls compose.  After any sequence of
    [register_algorithm], [set_deep_learning_model],
    [set_result_aggregator] and [set_db_manager] calls, the list of
    algorithms is the former list followed by every registered
    strategy in call order (none dropped, none merged); each of the
    three other attributes holds the argument of the last call that
    set it, or its former value when no call did; the calls do not
    disturb one another, none touches the database, none raises, and
    each leaves exactly one INFO record in the log. *)
Theorem setup_all_engine (cs : list Setup) (w : World) :
  ∃ (records : list LogRecord) (w' : World),
    setup_all cs w = (Return (), w') ∧
    algorithms (self w') = algorithms (self w) ++ registered cs ∧
    deep_learning_model (self w') =
      assigned model_of cs (deep_learning_model (self w)) ∧
    result_aggregator (self w') =
      assigned aggregator_of cs (result_aggregator (self w)) ∧
    db_manager (self w') = assigned manager_of cs (db_manager (self w)) ∧
    db w' = db w ∧
    log w' = log w ++ records ∧
    length records = length cs ∧
    Forall (λ r, log_level r = INFO) records.
Proof.
  revert w. induction cs as [|c cs IH]; intros w.
  - exists [], w. rewrite !app_nil_r. by repeat split.
  - simpl. unfold mbind, M_bind.
    destruct c; simpl;
      match goal with
      | |- context [mkWorld ?e ?d ?l ?n] =>
          destruct (IH (mkWorld e d l n))
            as (records & w' & -> & Ha & Hm & Hg & Hd & Hdb & Hl & Hn & Hi)
      end; simpl in *;
      eexists (_ :: records), w';
      (split; [reflexivity|]);
      rewrite Ha, Hm, Hg, Hd, Hdb, Hl, <- ?app_assoc; simpl;
      repeat split; auto.
Qed.

(** X14: a strategy shows up in the statistics as soon as it is
    registered: its summary is inserted after the summaries of the
    strategies registered before it and before the learning model's
    entry, and the other entries are what they were. *)
Theorem registered_strategy_in_stats (a : Algorithm) (w : World) :
  ∃ (before after : list Value) (w' : World),
    get_algorithm_stats w = (Return before, w) ∧
    (register_algorithm a;; get_algorithm_stats) w = (Return after, w') ∧
    after = take (length (algorithms (self w))) before ++
            [get_info a] ++
            drop (length (algorithms (self w))) before.
Proof.
  do 3 eexists. split; [apply get_algorithm_stats_run|].
  unfold mbind, M_bind. rewrite register_algorithm_run.
  split; [apply get_algorithm_stats_run|]. simpl.
  rewrite take_app_length', drop_app_length' by by rewrite length_fmap.
  by rewrite fmap_app, <- app_assoc.
Qed.

(** X15: the learning model's entry in the statistics is a dict with
    the keys name, weight, accuracy, trained and model_version, in
    that order, and it is the last entry; its name is LSTM and its
    model_version is the model's attribute [version], or "1.0" when
    the model has no such attribute. *)
Theorem stats_model_entry (w : World) (model : Object) :
  deep_learning_model (self w) = Some model →
  obj_truth model = true →
  is_Some (obj_attrs model !! "trained") →
  ∃ (stats : list Value) (entry : list (string * Value)),
    get_algorithm_stats w = (Return stats, w) ∧
    last stats = Some (VDict entry) ∧
    entry.*1 = ["name"; "weight"; "accuracy"; "trained"; "model_version"] ∧
    assoc "name" entry = Some (VStr "LSTM") ∧
    assoc "model_version" entry =
      Some (default (VStr "1.0") (obj_attrs model !! "version")).
Proof.
  intros Hmodel Ht Hh%hasattr_spec.
  do 2 eexists. split; [apply get_algorithm_stats_run|].
  rewrite Hmodel, Ht, Hh; simpl. rewrite last_snoc. by repeat split.
Qed.

Lemma stats_model_entry_witness :
  ∃ (stats : list Value) (entry : list (string * Value)),
    get_algorithm_stats Scenario.world_untrained
      = (Return stats, Scenario.world_untrained) ∧
    last stats = Some (VDict entry) ∧
    entry.*1 = ["name"; "weight"; "accuracy"; "trained"; "model_version"] ∧
    assoc "name" entry = Some (VStr "LSTM") ∧
    assoc "model_version" entry =
      Some (default (VStr "1.0") (obj_attrs Scenario.untrained !! "version")).
Proof.
  apply (stats_model_entry Scenario.world_untrained Scenario.untrained);
    [reflexivity|reflexivity|by eexists].
Defined.

(** X16: a freshly initialised engine is empty, whatever the world it
    is built in: its statistics are the empty list, [predict] without
    data returns [None] and [update_results] returns -1, both for want
    of a database manager and without any call on the database. *)
Theorem init_engine_is_empty (actual_result save_prediction : Value) (w : World) :
  (init;; get_algorithm_stats) w =
    (Return [], logged (mkLog INFO "Tahmin motoru başlatıldı" [])
                  (mkWorld (mkPredictionEngine [] None None None)
                     (db w) (log w) (now w))) ∧
  (∃ w', (init;; predict VNone save_prediction) w = (Return VNone, w') ∧
         db w' = db w) ∧
  (∃ w', (init;; update_results actual_result) w = (Return (VInt (-1)), w') ∧
         db w' = db w).
Proof.
  destruct w as [e d l n]. split; [reflexivity|].
  split; eexists; split; reflexivity.
Qed.

(** ** The statistics across the two cycles *)

(** X17: neither cycle changes the statistics.  Whatever [predict] or
    [update_results] is called with and whatever comes of the call,
    [get_algorithm_stats] answers afterwards exactly what it answered
    before: resolving outcomes never moves a weight or an accuracy. *)
Theorem stats_unchanged_by_cycles
    (data save_prediction actual_result : Value) (w : World) :
  (get_algorithm_stats (predict data save_prediction w).2).1
    = (get_algorithm_stats w).1 ∧
  (get_algorithm_stats (update_results actual_result w).2).1
    = (get_algorithm_stats w).1.
Proof.
  assert (keeps_self (predict data save_prediction)) as Hp.
  { unfold predict. frame. }
  rewrite !get_algorithm_stats_run; simpl.
  by rewrite (Hp w), (keeps_self_update_results actual_result w).
Qed.
